(** * GuardianApiCognitoStack: the declared resource graph

    A shallow embedding of [cdk_stacks/api_cognito_auth_stack.py] and
    [app.py].  The stack's constructor is a straight-line sequence of
    construct declarations; each declaration registers a node in the
    construct tree of the enclosing stack and may raise when the chosen
    construct id is already taken in its scope.  The constructor is
    therefore embedded as a computation in a state-and-error monad over
    the construct tree, and the SDK constructors it calls are embedded as
    the primitive operations of that monad.

    Python object references to constructs are embedded as the node path
    of the construct (relative to the stack), which is what identifies a
    construct inside a stack.

    The tree holds the constructs the source declares, and the two kinds
    of children the SDK adds on their behalf that the properties below
    depend on: the default deployment and stage of a REST API built with
    [deploy] set, and the OPTIONS method of a resource with CORS
    preflight options.  Resources the provider derives further down
    (subnets, route tables, permissions) are outside the tree. *)

From Stdlib Require Import String Ascii List Bool Arith Lia.
Import ListNotations.
Local Open Scope string_scope.
Local Open Scope list_scope.

Set Implicit Arguments.

(** ** Construct paths *)

Definition Path := list string.

Fixpoint path_eqb (p q : Path) : bool :=
  match p, q with
  | [], [] => true
  | a :: p', b :: q' => String.eqb a b && path_eqb p' q'
  | _, _ => false
  end.

(** ** Strings of a template

    Some attributes of a resource are known only to the provider, once
    the resource exists; its id is one of them.  The SDK hands such an
    attribute out as a token, and a string built from tokens is
    synthesized as the join of its literal text and the references to
    the resources the tokens stand for. *)

Inductive Fragment :=
| Lit (s : string)
| Ref (p : Path).

(** A string of a template: the fragments to be joined. *)
Definition Str := list Fragment.

(** A Python string literal. *)
Definition lit (s : string) : Str := [Lit s].

(** Adjacent literal fragments are one literal fragment. *)
Fixpoint join_literals (l : list Fragment) : Str :=
  match l with
  | [] => []
  | Lit a :: l' =>
      match join_literals l' with
      | Lit b :: r => Lit (a ++ b) :: r
      | r => Lit a :: r
      end
  | Ref p :: l' => Ref p :: join_literals l'
  end.

(** A Python f-string: the concatenation of its parts. *)
Definition fstring (parts : list Str) : Str := join_literals (concat parts).

Definition Fragment_eqb (a b : Fragment) : bool :=
  match a, b with
  | Lit x, Lit y => String.eqb x y
  | Ref p, Ref q => path_eqb p q
  | _, _ => false
  end.

Fixpoint Str_eqb (a b : Str) : bool :=
  match a, b with
  | [], [] => true
  | x :: a', y :: b' => Fragment_eqb x y && Str_eqb a' b'
  | _, _ => false
  end.

(** The text a string of the template stands for once every reference
    in it is resolved; what a reference resolves to is for the provider
    to say, so the resolution is a parameter. *)
Fixpoint resolve (env : Path -> option string) (s : Str) : option string :=
  match s with
  | [] => Some EmptyString
  | Lit a :: s' =>
      match resolve env s' with
      | Some b => Some (a ++ b)%string
      | None => None
      end
  | Ref p :: s' =>
      match env p, resolve env s' with
      | Some a, Some b => Some (a ++ b)%string
      | _, _ => None
      end
  end.

(** ** Property records of the constructs the stack declares

    Keyword arguments the source leaves out are the SDK's defaults; a
    field is an [option] where the properties distinguish a given value from
    the default. *)

(** [ec2.SubnetType] *)
Inductive SubnetType := PUBLIC | PRIVATE_WITH_EGRESS | PRIVATE_ISOLATED.

(** [ec2.SubnetConfiguration] *)
Record SubnetConfiguration := {
  name : string;
  cidr_mask : nat;
  subnet_type : SubnetType
}.

Record VpcProps := {
  ip_addresses : string;
  max_azs : nat;
  subnet_configuration : list SubnetConfiguration
}.

(** [aws_cdk.RemovalPolicy] *)
Inductive RemovalPolicy := DESTROY | RETAIN | SNAPSHOT.

Record UserPoolProps := {
  removal_policy : option RemovalPolicy
}.

(** [cognito.CognitoDomainOptions] *)
Record CognitoDomainOptions := {
  domain_prefix : string
}.

Record UserPoolDomainProps := {
  domain_user_pool : Path;
  cognito_domain : CognitoDomainOptions
}.

(** [cognito.ResourceServerScope]: a plain value, not a construct. *)
Record ResourceServerScope := {
  scope_name : string;
  scope_description : string
}.

Record UserPoolResourceServerProps := {
  server_user_pool : Path;
  user_pool_resource_server_name : string;
  identifier : string;
  scopes : list ResourceServerScope
}.

(** [cognito.AuthFlow]; every flag defaults to [False]. *)
Record AuthFlow := {
  admin_user_password : bool;
  custom : bool;
  user_password : bool;
  user_srp : bool
}.

(** [cognito.OAuthFlows]; every flag defaults to [False]. *)
Record OAuthFlows := {
  authorization_code_grant : bool;
  client_credentials : bool;
  implicit_code_grant : bool
}.

(** [cognito.OAuthScope]: a scope is carried by its name. *)
Record OAuthScope := {
  oauth_scope_name : Str
}.

Record OAuthSettings := {
  flows : OAuthFlows;
  oauth_scopes : list OAuthScope
}.

Record UserPoolClientProps := {
  client_user_pool : Path;
  auth_flows : AuthFlow;
  o_auth : OAuthSettings;
  generate_secret : bool;
  user_pool_client_name : string
}.

Record CognitoUserPoolsAuthorizerProps := {
  cognito_user_pools : list Path;
  authorizer_name : string
}.

Record RoleProps := {
  assumed_by : string;
  managed_policies : list string
}.

(** [aws_lambda.Runtime] (the members this development names). *)
Inductive Runtime := PYTHON_3_8 | PYTHON_3_9 | PYTHON_3_10.

Record FunctionProps := {
  handler : string;
  vpc : option Path;
  runtime : Runtime;
  code : string;
  role : option Path
}.

Record RestApiProps := {
  description : string;
  rest_api_name : string;
  deploy : bool
}.

(** [apigateway.CorsOptions] *)
Record CorsOptions := {
  allow_methods : list string;
  allow_origins : list string
}.

Record ResourceProps := {
  parent : Path;
  path_part : string;
  default_cors_preflight_options : option CorsOptions
}.

(** [apigateway.IntegrationResponse] *)
Record IntegrationResponse := {
  ir_status_code : string;
  ir_response_parameters : list (string * string)
}.

(** [apigateway.MethodResponse] *)
Record MethodResponse := {
  mr_status_code : string;
  mr_response_parameters : list (string * bool)
}.

Inductive Integration :=
| LambdaIntegration (fn : Path) (proxy : bool)
                    (integration_responses : list IntegrationResponse)
| MockIntegration.

(** [apigateway.AuthorizationType] *)
Inductive AuthorizationType := NONE | IAM | CUSTOM | COGNITO.

Record MethodProps := {
  method_resource : Path;
  http_method : string;
  integration : Integration;
  authorizer : option Path;
  authorization_scopes : list Str;
  authorization_type : AuthorizationType;
  method_responses : list MethodResponse
}.

Record DeploymentProps := {
  api : Path
}.

Record StageProps := {
  deployment : Path;
  stage_name : string
}.

(** ** The construct tree *)

Inductive Construct :=
| CVpc (p : VpcProps)
| CUserPool (p : UserPoolProps)
| CUserPoolDomain (p : UserPoolDomainProps)
| CUserPoolResourceServer (p : UserPoolResourceServerProps)
| CUserPoolClient (p : UserPoolClientProps)
| CAuthorizer (p : CognitoUserPoolsAuthorizerProps)
| CRole (p : RoleProps)
| CFunction (p : FunctionProps)
| CRestApi (p : RestApiProps)
| CResource (p : ResourceProps)
| CMethod (p : MethodProps)
| CDeployment (p : DeploymentProps)
| CStage (p : StageProps).

(** The nodes of a stack, in declaration order. *)
Definition Tree := list (Path * Construct).

Fixpoint lookup (p : Path) (t : Tree) : option Construct :=
  match t with
  | [] => None
  | (q, c) :: t' => if path_eqb p q then Some c else lookup p t'
  end.

Definition declared (p : Path) (t : Tree) : bool :=
  match lookup p t with Some _ => true | None => false end.

(** ** Construction monad: the tree is threaded, a clash of ids raises *)

Inductive Error :=
| DuplicateConstructId (p : Path).

Inductive Result (A : Type) :=
| Ok (a : A)
| Raise (e : Error).
Arguments Ok {A} a.
Arguments Raise {A} e.

Definition M (A : Type) := Tree -> Result (A * Tree).

Definition ret {A} (a : A) : M A := fun t => Ok (a, t).

Definition bind {A B} (m : M A) (k : A -> M B) : M B :=
  fun t => match m t with
           | Ok (a, t') => k a t'
           | Raise e => Raise e
           end.

Declare Scope cdk_scope.
Delimit Scope cdk_scope with cdk.
Notation "x <- m ;; k" := (bind m (fun x => k))
  (at level 61, m at next level, right associativity) : cdk_scope.
Notation "m ;; k" := (bind m (fun _ => k))
  (at level 61, right associativity) : cdk_scope.
Local Open Scope cdk_scope.

(** [for x in xs: body x] *)
Fixpoint for_each {A} (xs : list A) (body : A -> M unit) : M unit :=
  match xs with
  | [] => ret tt
  | x :: xs' => body x ;; for_each xs' body
  end.

(** [Construct.__init__(scope, id)]: the node [scope/id] is added to the
    tree; the SDK raises when the scope already has a child named [id]. *)
Definition add_construct (scope : Path) (id : string) (c : Construct) : M Path :=
  fun t =>
    let p := scope ++ [id] in
    if declared p t then Raise (DuplicateConstructId p)
    else Ok (p, t ++ [(p, c)]).

(** ** The SDK constructors the stack calls

    Each takes its scope and construct id first, as in the source, and
    then the keyword arguments the source passes. *)

Module ec2.

(** [ec2.IpAddresses.cidr(block)] *)
Definition cidr (block : string) : string := block.

Definition Vpc (scope : Path) (id : string) (ip_addresses : string)
    (max_azs : nat) (subnet_configuration : list SubnetConfiguration)
    : M Path :=
  add_construct scope id
    (CVpc {| ip_addresses := ip_addresses;
             max_azs := max_azs;
             subnet_configuration := subnet_configuration |}).

End ec2.

Module cognito.

Definition UserPool (scope : Path) (id : string)
    (removal_policy : option RemovalPolicy) : M Path :=
  add_construct scope id (CUserPool {| removal_policy := removal_policy |}).

Definition UserPoolDomain (scope : Path) (id : string) (user_pool : Path)
    (cognito_domain : CognitoDomainOptions) : M Path :=
  add_construct scope id
    (CUserPoolDomain {| domain_user_pool := user_pool;
                        cognito_domain := cognito_domain |}).

(** What [add_resource_server] returns: the construct, and its
    attribute [user_pool_resource_server_id], the id under which the
    provider knows the resource server.  The attribute is a token: a
    reference to the resource server, not the identifier it was declared
    with. *)
Record UserPoolResourceServer := {
  server_path : Path;
  user_pool_resource_server_id : Str
}.

(** [user_pool.add_resource_server(id, ...)]: the resource server is a
    child construct of the pool and is attached to that pool. *)
Definition add_resource_server (user_pool : Path) (id : string)
    (user_pool_resource_server_name identifier : string)
    (scopes : list ResourceServerScope) : M UserPoolResourceServer :=
  p <- add_construct user_pool id
         (CUserPoolResourceServer
            {| server_user_pool := user_pool;
               user_pool_resource_server_name := user_pool_resource_server_name;
               identifier := identifier;
               scopes := scopes |}) ;;
  ret {| server_path := p; user_pool_resource_server_id := [Ref p] |}.

(** [OAuthScope.resource_server(server, scope)]: the scope named
    ["{resourceServerId}/{scopeName}"]. *)
Definition OAuthScope_resource_server (server : UserPoolResourceServer)
    (scope : ResourceServerScope) : OAuthScope :=
  {| oauth_scope_name :=
       fstring [ user_pool_resource_server_id server; lit "/";
                 lit (scope_name scope) ] |}.

(** [user_pool.add_client(id, ...)]: the client is a child construct of
    the pool and is registered on that pool. *)
Definition add_client (user_pool : Path) (id : string)
    (auth_flows : AuthFlow) (o_auth : OAuthSettings)
    (generate_secret : bool) (user_pool_client_name : string) : M Path :=
  add_construct user_pool id
    (CUserPoolClient {| client_user_pool := user_pool;
                        auth_flows := auth_flows;
                        o_auth := o_auth;
                        generate_secret := generate_secret;
                        user_pool_client_name := user_pool_client_name |}).

End cognito.

Module iam.

(** [iam.ServicePrincipal(service)] *)
Definition ServicePrincipal (service : string) : string := service.

(** [iam.ManagedPolicy.from_aws_managed_policy_name(name)] *)
Definition from_aws_managed_policy_name (name : string) : string := name.

Definition Role (scope : Path) (id : string) (assumed_by : string)
    (managed_policies : list string) : M Path :=
  add_construct scope id
    (CRole {| assumed_by := assumed_by;
              managed_policies := managed_policies |}).

End iam.

Module aws_lambda.

(** [aws_lambda.Code.from_asset(path)] *)
Definition from_asset (path : string) : string := path.

Definition Function (scope : Path) (id : string) (handler : string)
    (vpc : option Path) (runtime : Runtime) (code : string)
    (role : option Path) : M Path :=
  add_construct scope id
    (CFunction {| handler := handler; vpc := vpc; runtime := runtime;
                  code := code; role := role |}).

End aws_lambda.

Module apigateway.

(** [apigateway.Cors.ALL_ORIGINS] *)
Definition ALL_ORIGINS : list string := ["*"].

Definition CognitoUserPoolsAuthorizer (scope : Path) (id : string)
    (cognito_user_pools : list Path) (authorizer_name : string) : M Path :=
  add_construct scope id
    (CAuthorizer {| cognito_user_pools := cognito_user_pools;
                    authorizer_name := authorizer_name |}).

Definition Deployment (scope : Path) (id : string) (api : Path) : M Path :=
  add_construct scope id (CDeployment {| api := api |}).

Definition Stage (scope : Path) (id : string) (deployment : Path)
    (stage_name : string) : M Path :=
  add_construct scope id
    (CStage {| deployment := deployment; stage_name := stage_name |}).

(** What [RestApi(...)] returns: the API and its root resource [api.root]. *)
Record RestApi_handle := {
  api_path : Path;
  root : Path
}.

(** [apigateway.RestApi(scope, id, ...)].  With [deploy] set (the SDK's
    default) the construct itself declares a deployment and a stage
    named "prod" as its children; with [deploy=False] it declares
    neither. *)
Definition RestApi (scope : Path) (id : string)
    (description rest_api_name : string) (deploy : bool)
    : M RestApi_handle :=
  p <- add_construct scope id
         (CRestApi {| description := description;
                      rest_api_name := rest_api_name;
                      deploy := deploy |}) ;;
  (if deploy then
     d <- Deployment p "Deployment" p ;;
     Stage p "DeploymentStage.prod" d "prod" ;;
     ret tt
   else ret tt) ;;
  ret {| api_path := p; root := p ++ ["Default"] |}.

Definition add_method (resource : Path) (http_method : string)
    (integration : Integration) (authorizer : option Path)
    (authorization_scopes : list Str)
    (authorization_type : AuthorizationType)
    (method_responses : list MethodResponse) : M Path :=
  add_construct resource http_method
    (CMethod {| method_resource := resource;
                http_method := http_method;
                integration := integration;
                authorizer := authorizer;
                authorization_scopes := authorization_scopes;
                authorization_type := authorization_type;
                method_responses := method_responses |}).

(** [resource.add_resource(path_part, default_cors_preflight_options)]:
    the new resource is a child of [resource]; when CORS preflight
    options are given, the SDK also declares the unauthenticated
    OPTIONS method that answers the preflight request. *)
Definition add_resource (resource : Path) (path_part : string)
    (default_cors_preflight_options : option CorsOptions) : M Path :=
  p <- add_construct resource path_part
         (CResource {| parent := resource;
                       path_part := path_part;
                       default_cors_preflight_options :=
                         default_cors_preflight_options |}) ;;
  match default_cors_preflight_options with
  | Some _ =>
      add_method p "OPTIONS" MockIntegration None [] NONE [] ;;
      ret p
  | None => ret p
  end.

End apigateway.

(** ** [GuardianApiCognitoStack.__init__], after [super().__init__]

    [self] is the stack, the scope of the top-level constructs. *)

Definition self : Path := [].

Definition stages : list string := ["dev"; "prod"].

Definition GuardianApiCognitoStack_body : M unit :=
  (* Create VPC for secure resources deployment *)
  guardian_vpc <-
    ec2.Vpc self "GuardianVPC" (ec2.cidr "10.2.0.0/16") 1
      [ {| name := "GuardianSubnetPublic"; cidr_mask := 24;
           subnet_type := PUBLIC |};
        {| name := "GuardianSubnetPrivate"; cidr_mask := 24;
           subnet_type := PRIVATE_ISOLATED |} ] ;;
  (* Cognito UserPool for the authentication application *)
  guardian_user_pool <- cognito.UserPool self "GuardianPool" (Some DESTROY) ;;
  (* Cognito default authentication domain with custom prefix *)
  cognito.UserPoolDomain self "GuardianUserPoolDomain" guardian_user_pool
    {| domain_prefix := "guardian" |} ;;
  (* Custom scope for the client_credentials grant *)
  let guardian_readonly_scope :=
    {| scope_name := "guardian.read";
       scope_description := "Scope to read data only" |} in
  (* Cognito resource server for the custom scopes *)
  guardian_cognito_resource_server <-
    cognito.add_resource_server guardian_user_pool
      "GuardianCognitoResourceServer"
      "GuardianCognitoResourceServer"
      "guardian-cognito-resource-server"
      [guardian_readonly_scope] ;;
  (* The application client with the client_credentials grant *)
  cognito.add_client guardian_user_pool "GuardianAppClient"
    {| admin_user_password := false; custom := false;
       user_password := false; user_srp := true |}
    {| flows := {| authorization_code_grant := false;
                   client_credentials := true;
                   implicit_code_grant := false |};
       oauth_scopes :=
         [ cognito.OAuthScope_resource_server
             guardian_cognito_resource_server guardian_readonly_scope ] |}
    true
    "GuardianAppClient" ;;
  (* Cognito authorizer for API resources *)
  guardian_autorizer <-
    apigateway.CognitoUserPoolsAuthorizer self "GuardianAPIAuthorizer"
      [guardian_user_pool] "GuardianAPIAuthorizer" ;;
  (* Access/execution policy of the lambda function *)
  guardian_lambda_role <-
    iam.Role self "GuardianLambdaRole"
      (iam.ServicePrincipal "lambda.amazonaws.com")
      [ iam.from_aws_managed_policy_name
          "service-role/AWSLambdaVPCAccessExecutionRole" ] ;;
  (* Gateway API backend lambda *)
  guardian_api_backend_lambda <-
    aws_lambda.Function self "GuardianReadLambda" "api_read_lambda.handler"
      (Some guardian_vpc) PYTHON_3_9
      (aws_lambda.from_asset "./cdk_stacks/lambda")
      (Some guardian_lambda_role) ;;
  (* Guardian API *)
  guardian_api <-
    apigateway.RestApi self "GuardianApiGatewayWithCors"
      "client_credentials grant authorization for Guardian API Gateway endpoint access"
      "GuardianAPI" false ;;
  (* Gateway API resource "galaxy" *)
  guardian_endpoint <-
    apigateway.add_resource (apigateway.root guardian_api) "galaxy"
      (Some {| allow_methods := ["GET"; "OPTIONS"];
               allow_origins := apigateway.ALL_ORIGINS |}) ;;
  (* Integration between the API endpoint and the Lambda backend *)
  let guardian_endpoint_lambda_integration :=
    LambdaIntegration guardian_api_backend_lambda true
      [ {| ir_status_code := "200";
           ir_response_parameters :=
             [ ("method.response.header.Access-Control-Allow-Origin",
                "'*'") ] |} ] in
  (* The GET method of the endpoint *)
  apigateway.add_method guardian_endpoint "GET"
    guardian_endpoint_lambda_integration
    (Some guardian_autorizer)
    [ fstring
        [ cognito.user_pool_resource_server_id guardian_cognito_resource_server;
          lit "/";
          lit (scope_name guardian_readonly_scope) ] ]
    COGNITO
    [ {| mr_status_code := "200";
         mr_response_parameters :=
           [ ("method.response.header.Access-Control-Allow-Origin",
              true) ] |} ] ;;
  (* Deploy API Gateway stages *)
  guardian_api_deployment <-
    apigateway.Deployment self "GuardianAPIGWDeployment"
      (apigateway.api_path guardian_api) ;;
  for_each stages (fun s =>
    apigateway.Stage self (s ++ "_stage")%string guardian_api_deployment s ;;
    ret tt).

(** ** Stacks and the app *)

Record Stack := {
  stack_id : string;
  resources : Tree
}.

(** [cdk.App]: the stacks constructed in it so far. *)
Record App := {
  children : list Stack
}.

(** [cdk.App()] *)
Definition App_new : App := {| children := [] |}.

Definition has_child (scope : App) (id : string) : bool :=
  existsb (fun s => String.eqb (stack_id s) id) (children scope).

(** [GuardianApiCognitoStack(scope, construct_id)]: [super().__init__]
    registers the stack under [construct_id] in [scope] (raising when the
    id is taken), then the body declares the resources.  The result is
    the app with the new stack in it, and the stack.  The other ways the
    SDK can raise here (an id that is not a valid stack name, an asset
    directory that does not exist) are outside the model: the properties
    below are about a call that has returned. *)
Definition GuardianApiCognitoStack (scope : App) (construct_id : string)
    : Result (App * Stack) :=
  if has_child scope construct_id
  then Raise (DuplicateConstructId [construct_id])
  else
    match GuardianApiCognitoStack_body [] with
    | Ok (_, t) =>
        let stack := {| stack_id := construct_id; resources := t |} in
        Ok ({| children := children scope ++ [stack] |}, stack)
    | Raise e => Raise e
    end.

(** [app.synth()]: one template per stack, holding the stack's resources. *)
Definition synth (app : App) : list (string * Tree) :=
  map (fun s => (stack_id s, resources s)) (children app).

(** [app.py] *)
Definition app_py : Result (list (string * Tree)) :=
  let app := App_new in
  match GuardianApiCognitoStack app "GuardianApiCognitoAuthStack" with
  | Ok (app', _) => Ok (synth app')
  | Raise e => Raise e
  end.

(** The tree the body declares, starting from the empty stack. *)
Definition declared_resources : Tree :=
  Eval vm_compute in
    match GuardianApiCognitoStack_body [] with
    | Ok (_, t) => t
    | Raise _ => []
    end.

(** The stack [app.py] constructs, and the app after it. *)
Definition app_stack : Stack :=
  {| stack_id := "GuardianApiCognitoAuthStack";
     resources := declared_resources |}.

Definition app_after : App := {| children := [app_stack] |}.

(** ** Reading a synthesized template *)

Inductive Kind :=
| KVpc | KUserPool | KUserPoolDomain | KUserPoolResourceServer
| KUserPoolClient | KAuthorizer | KRole | KFunction | KRestApi
| KResource | KMethod | KDeployment | KStage.

Definition kind_of (c : Construct) : Kind :=
  match c with
  | CVpc _ => KVpc
  | CUserPool _ => KUserPool
  | CUserPoolDomain _ => KUserPoolDomain
  | CUserPoolResourceServer _ => KUserPoolResourceServer
  | CUserPoolClient _ => KUserPoolClient
  | CAuthorizer _ => KAuthorizer
  | CRole _ => KRole
  | CFunction _ => KFunction
  | CRestApi _ => KRestApi
  | CResource _ => KResource
  | CMethod _ => KMethod
  | CDeployment _ => KDeployment
  | CStage _ => KStage
  end.

Definition Kind_eq_dec (a b : Kind) : {a = b} + {a <> b}.
Proof. decide equality. Defined.

Definition Kind_eqb (a b : Kind) : bool :=
  if Kind_eq_dec a b then true else false.

(** Number of resources of kind [k] in a template. *)
Definition count (k : Kind) (t : Tree) : nat :=
  length (filter (fun n => Kind_eqb (kind_of (snd n)) k) t).

(** The resources a projection [f] recognises, with their properties. *)
Fixpoint select {P} (f : Construct -> option P) (t : Tree) : list (Path * P) :=
  match t with
  | [] => []
  | (p, c) :: t' =>
      match f c with
      | Some x => (p, x) :: select f t'
      | None => select f t'
      end
  end.

Definition as_vpc c := match c with CVpc p => Some p | _ => None end.
Definition as_user_pool c := match c with CUserPool p => Some p | _ => None end.
Definition as_domain c := match c with CUserPoolDomain p => Some p | _ => None end.
Definition as_resource_server c :=
  match c with CUserPoolResourceServer p => Some p | _ => None end.
Definition as_client c := match c with CUserPoolClient p => Some p | _ => None end.
Definition as_authorizer c := match c with CAuthorizer p => Some p | _ => None end.
Definition as_role c := match c with CRole p => Some p | _ => None end.
Definition as_function c := match c with CFunction p => Some p | _ => None end.
Definition as_rest_api c := match c with CRestApi p => Some p | _ => None end.
Definition as_resource c := match c with CResource p => Some p | _ => None end.
Definition as_method c := match c with CMethod p => Some p | _ => None end.
Definition as_deployment c := match c with CDeployment p => Some p | _ => None end.
Definition as_stage c := match c with CStage p => Some p | _ => None end.

(** The API resources with a given path segment. *)
Definition resources_named (part : string) (t : Tree)
    : list (Path * ResourceProps) :=
  filter (fun r => String.eqb (path_part (snd r)) part) (select as_resource t).

(** The methods with a given verb declared on a given API resource. *)
Definition methods_of (resource : Path) (verb : string) (t : Tree)
    : list (Path * MethodProps) :=
  filter (fun m => path_eqb (method_resource (snd m)) resource
                   && String.eqb (http_method (snd m)) verb)
         (select as_method t).

(** [is_kind k p t]: the path [p] names a declared construct of kind [k]. *)
Definition is_kind (k : Kind) (p : Path) (t : Tree) : bool :=
  match lookup p t with
  | Some c => Kind_eqb (kind_of c) k
  | None => false
  end.

Fixpoint is_prefix (p q : Path) : bool :=
  match p, q with
  | [], _ => true
  | a :: p', b :: q' => String.eqb a b && is_prefix p' q'
  | _ :: _, [] => false
  end.

(** The constructs declared below the construct [p] (its descendants). *)
Definition descendants (p : Path) (t : Tree) : Tree :=
  filter (fun n => is_prefix p (fst n) && negb (path_eqb p (fst n))) t.

(** ** Reference consistency of a template

    What the provider checks when the template is deployed: every
    reference names a declared construct of the expected kind, and every
    custom OAuth scope of a client names a scope of a resource server
    attached to the pool the client is registered on: either through
    the server's id attribute, as ["{resourceServerId}/{scopeName}"], or
    in literal text, as ["{identifier}/{scopeName}"]. *)

(** The scopes every pool offers without a resource server. *)
Definition standard_scopes : list string :=
  ["phone"; "email"; "openid"; "profile"; "aws.cognito.signin.user.admin"].

(** The string that names the scope [sc] of the resource server at
    [server] through the server's id attribute. *)
Definition scope_of_server (server : Path) (sc : ResourceServerScope) : Str :=
  fstring [ [Ref server]; lit "/"; lit (scope_name sc) ].

Definition server_declares (server : Path) (rs : UserPoolResourceServerProps)
    (s : Str) : bool :=
  existsb (fun sc =>
             Str_eqb s (scope_of_server server sc)
             || Str_eqb s (lit (identifier rs ++ "/" ++ scope_name sc)))
          (scopes rs).

Definition scope_declared_on (pool : Path) (s : Str) (t : Tree) : bool :=
  existsb (fun rs => path_eqb (server_user_pool (snd rs)) pool
                     && server_declares (fst rs) (snd rs) s)
          (select as_resource_server t).

Definition scope_ok (pool : Path) (s : Str) (t : Tree) : bool :=
  existsb (fun std => Str_eqb s (lit std)) standard_scopes
  || scope_declared_on pool s t.

Definition opt_ref (k : Kind) (r : option Path) (t : Tree) : bool :=
  match r with
  | Some p => is_kind k p t
  | None => true
  end.

Definition integration_ok (i : Integration) (t : Tree) : bool :=
  match i with
  | LambdaIntegration fn _ _ => is_kind KFunction fn t
  | MockIntegration => true
  end.

(** The parent of an API resource is another resource or the root of a
    declared REST API. *)
Definition parent_ok (p : Path) (t : Tree) : bool :=
  is_kind KResource p t
  || match rev p with
     | last :: api_rev => String.eqb last "Default"
                          && is_kind KRestApi (rev api_rev) t
     | [] => false
     end.

Definition refs_ok (t : Tree) (c : Construct) : bool :=
  match c with
  | CVpc _ | CUserPool _ | CRole _ | CRestApi _ => true
  | CUserPoolDomain d => is_kind KUserPool (domain_user_pool d) t
  | CUserPoolResourceServer rs => is_kind KUserPool (server_user_pool rs) t
  | CUserPoolClient c =>
      is_kind KUserPool (client_user_pool c) t
      && forallb (fun s => scope_ok (client_user_pool c) (oauth_scope_name s) t)
                 (oauth_scopes (o_auth c))
  | CAuthorizer a =>
      forallb (fun p => is_kind KUserPool p t) (cognito_user_pools a)
  | CFunction f => opt_ref KVpc (vpc f) t && opt_ref KRole (role f) t
  | CResource r => parent_ok (parent r) t
  | CMethod m =>
      is_kind KResource (method_resource m) t
      && opt_ref KAuthorizer (authorizer m) t
      && integration_ok (integration m) t
  | CDeployment d => is_kind KRestApi (api d) t
  | CStage s => is_kind KDeployment (deployment s) t
  end.

Definition well_referenced (t : Tree) : bool :=
  forallb (fun n => refs_ok t (snd n)) t.

(** ** Further checks on a template *)

(** The resolution under which a reference to a resource server gives
    the identifier the server was declared with, and no other reference
    is resolved.  Nothing in the source fixes what the provider returns
    for the reference; this is the resolution under which a scope built
    from the server's id attribute names the scope
    ["{identifier}/{scopeName}"]. *)
Definition server_ids (t : Tree) (p : Path) : option string :=
  match lookup p t with
  | Some (CUserPoolResourceServer rs) => Some (identifier rs)
  | _ => None
  end.

(** The nodes the stage loop declares for the stage names [names]. *)
Definition stage_nodes (d : Path) (names : list string) : Tree :=
  map (fun s => (self ++ [(s ++ "_stage")%string],
                 CStage {| deployment := d; stage_name := s |}))
      names.

(** The loop of the constructor, for any list of stage names, any
    deployment and any tree it starts from. *)
Definition stage_loop (names : list string) (d : Path) : M unit :=
  for_each names (fun s =>
    apigateway.Stage self (s ++ "_stage")%string d s ;;
    ret tt).

(** The GET method of the endpoint, as [add_method] declares it. *)
Definition galaxy_get_path : Path :=
  ["GuardianApiGatewayWithCors"; "Default"; "galaxy"; "GET"].

Definition galaxy_get_props : MethodProps :=
  {| method_resource := ["GuardianApiGatewayWithCors"; "Default"; "galaxy"];
     http_method := "GET";
     integration :=
       LambdaIntegration ["GuardianReadLambda"] true
         [ {| ir_status_code := "200";
              ir_response_parameters :=
                [ ("method.response.header.Access-Control-Allow-Origin",
                   "'*'") ] |} ];
     authorizer := Some ["GuardianAPIAuthorizer"];
     authorization_scopes :=
       [ [ Ref ["GuardianPool"; "GuardianCognitoResourceServer"];
           Lit "/guardian.read" ] ];
     authorization_type := COGNITO;
     method_responses :=
       [ {| mr_status_code := "200";
            mr_response_parameters :=
              [ ("method.response.header.Access-Control-Allow-Origin",
                 true) ] |} ] |}.


(** The prefix length [n] of a CIDR block ["a.b.c.d/n"]. *)
Fixpoint after_slash (s : string) : option string :=
  match s with
  | EmptyString => None
  | String c s' => if Ascii.eqb c "/"%char then Some s' else after_slash s'
  end.

Definition digit (c : Ascii.ascii) : option nat :=
  let n := Ascii.nat_of_ascii c in
  if Nat.leb 48 n && Nat.leb n 57 then Some (n - 48) else None.

Fixpoint decimal (acc : nat) (s : string) : option nat :=
  match s with
  | EmptyString => Some acc
  | String c s' =>
      match digit c with
      | Some d => decimal (10 * acc + d) s'
      | None => None
      end
  end.

Definition prefix_length (block : string) : option nat :=
  match after_slash block with
  | Some EmptyString => None
  | Some s => decimal 0 s
  | None => None
  end.

(** Number of addresses of a block with the given prefix length. *)
Definition addresses (mask : nat) : nat := 2 ^ (32 - mask).

(** The subnets of a VPC fit its address block: every subnet group has a
    mask at least as long as the block's prefix, and one subnet per group
    and availability zone takes no more addresses than the block has. *)
Definition subnets_fit (v : VpcProps) : bool :=
  match prefix_length (ip_addresses v) with
  | Some n =>
      forallb (fun s => Nat.leb n (cidr_mask s) && Nat.leb (cidr_mask s) 32)
              (subnet_configuration v)
      && Nat.leb (max_azs v
                  * list_sum (map (fun s => addresses (cidr_mask s))
                                  (subnet_configuration v)))
                 (addresses n)
  | None => false
  end.

(** A method response of [m] for [status] declares the parameter
    [header]. *)
Definition declares_parameter (m : MethodProps) (status header : string)
    : bool :=
  existsb (fun r => String.eqb (mr_status_code r) status
                    && existsb (fun h => String.eqb (fst h) header)
                               (mr_response_parameters r))
          (method_responses m).

(** Every response parameter the integration of [m] sets is declared by
    a method response of [m] with the same status code. *)
Definition responses_consistent (m : MethodProps) : bool :=
  match integration m with
  | LambdaIntegration _ _ irs =>
      forallb (fun ir =>
                 forallb (fun h => declares_parameter m (ir_status_code ir)
                                                      (fst h))
                         (ir_response_parameters ir))
              irs
  | MockIntegration => true
  end.

(** The verbs of the methods declared on an API resource. *)
Definition declared_verbs (resource : Path) (t : Tree) : list string :=
  map (fun m => http_method (snd m))
      (filter (fun m => path_eqb (method_resource (snd m)) resource)
              (select as_method t)).

Definition same_members (l l' : list string) : bool :=
  forallb (fun x => existsb (String.eqb x) l') l
  && forallb (fun x => existsb (String.eqb x) l) l'.

(** The methods a resource's CORS preflight allows are the methods
    declared on the resource. *)
Definition cors_matches_methods (t : Tree) : bool :=
  forallb (fun r =>
             match default_cors_preflight_options (snd r) with
             | Some c => same_members (allow_methods c)
                                      (declared_verbs (fst r) t)
             | None => true
             end)
          (select as_resource t).

(** Some client registered on one of [pools] may obtain the scope [s]
    through the client-credentials grant. *)
Definition scope_grantable (t : Tree) (pools : list Path) (s : Str)
    : bool :=
  existsb (fun c =>
             existsb (path_eqb (client_user_pool (snd c))) pools
             && client_credentials (flows (o_auth (snd c)))
             && existsb (fun sc => Str_eqb (oauth_scope_name sc) s)
                        (oauth_scopes (o_auth (snd c))))
          (select as_client t).

(** A method guarded by an authorizer can be called by some client of
    the stack: one of the scopes it accepts is grantable on a pool its
    authorizer references. *)
Definition method_callable (t : Tree) (m : MethodProps) : bool :=
  match authorizer m with
  | Some a =>
      match lookup a t with
      | Some (CAuthorizer ap) =>
          existsb (scope_grantable t (cognito_user_pools ap))
                  (authorization_scopes m)
      | _ => false
      end
  | None => true
  end.

(** The user pools a construct refers to. *)
Definition pool_refs (c : Construct) : list Path :=
  match c with
  | CUserPoolDomain d => [domain_user_pool d]
  | CUserPoolResourceServer rs => [server_user_pool rs]
  | CUserPoolClient cl => [client_user_pool cl]
  | CAuthorizer a => cognito_user_pools a
  | _ => []
  end.

(** A function placed in a VPC has a role the Lambda service may assume
    and that carries the VPC access execution policy. *)
Definition vpc_function_role_ok (t : Tree) (f : FunctionProps) : bool :=
  match vpc f with
  | None => true
  | Some _ =>
      match role f with
      | Some r =>
          match lookup r t with
          | Some (CRole rp) =>
              String.eqb (assumed_by rp) "lambda.amazonaws.com"
              && existsb
                   (String.eqb "service-role/AWSLambdaVPCAccessExecutionRole")
                   (managed_policies rp)
          | _ => false
          end
      | None => false
      end
  end.

(** * Properties *)

(** ** Paths and lookups *)

Lemma path_eqb_eq (p q : Path) : path_eqb p q = true <-> p = q.
Proof.
  revert q; induction p as [|a p IH]; intros [|b q]; simpl;
    try (split; [discriminate | discriminate]); [tauto|].
  rewrite andb_true_iff, String.eqb_eq, IH.
  split; [intros [-> ->]; reflexivity | intros E; injection E; auto].
Qed.

Lemma path_eqb_refl (p : Path) : path_eqb p p = true.
Proof. apply path_eqb_eq; reflexivity. Qed.

Lemma lookup_app (p : Path) (t u : Tree) :
  lookup p (t ++ u) =
  match lookup p t with Some c => Some c | None => lookup p u end.
Proof.
  induction t as [|[q c] t IH]; simpl; [reflexivity|].
  destruct (path_eqb p q); [reflexivity | exact IH].
Qed.

Lemma lookup_In (p : Path) (c : Construct) (t : Tree) :
  lookup p t = Some c -> In (p, c) t.
Proof.
  induction t as [|[q d] t IH]; simpl; [discriminate|].
  destruct (path_eqb p q) eqn:E.
  - apply path_eqb_eq in E; subst q. intros H; injection H as ->. now left.
  - intros H; right; auto.
Qed.



Lemma count_app (k : Kind) (t u : Tree) :
  count k (t ++ u) = count k t + count k u.
Proof. unfold count. rewrite filter_app, length_app. reflexivity. Qed.

Lemma count_single (k : Kind) (p : Path) (c : Construct) :
  count k [(p, c)] = if Kind_eqb (kind_of c) k then 1 else 0.
Proof. unfold count; simpl. destruct (Kind_eqb (kind_of c) k); reflexivity. Qed.

(** ** The construction monad *)

(** A declaration that returns has added exactly its own node, at the
    path [scope/id], which was free before. *)
Lemma add_construct_inv scope id c t p t' :
  add_construct scope id c t = Ok (p, t') ->
  p = scope ++ [id] /\ declared p t = false /\ t' = t ++ [(p, c)].
Proof.
  unfold add_construct.
  destruct (declared (scope ++ [id]) t) eqn:D; [discriminate|].
  intros H; injection H as <- <-. auto.
Qed.

(** A declaration returns exactly when its path is free. *)
Lemma add_construct_fresh scope id c t :
  declared (scope ++ [id]) t = false ->
  add_construct scope id c t = Ok (scope ++ [id], t ++ [(scope ++ [id], c)]).
Proof. unfold add_construct; intros ->; reflexivity. Qed.

Lemma add_construct_clash scope id c t :
  declared (scope ++ [id]) t = true ->
  add_construct scope id c t = Raise (DuplicateConstructId (scope ++ [id])).
Proof. unfold add_construct; intros ->; reflexivity. Qed.

Lemma declared_In_fst (p : Path) (t : Tree) :
  declared p t = false -> ~ In p (map fst t).
Proof.
  unfold declared. induction t as [|[q c] t IH]; simpl; [tauto|].
  destruct (path_eqb p q) eqn:E; [discriminate|].
  intros H [->|HIn]; [rewrite path_eqb_refl in E; discriminate | now apply IH].
Qed.

(** Node paths stay pairwise distinct under every declaration. *)
Lemma add_construct_NoDup scope id c t p t' :
  NoDup (map fst t) ->
  add_construct scope id c t = Ok (p, t') ->
  NoDup (map fst t').
Proof.
  intros ND H. apply add_construct_inv in H as (-> & D & ->).
  rewrite map_app; simpl.
  apply NoDup_app; [exact ND | repeat constructor; intros [] | ].
  intros x Hx [<-|[]]. exact (declared_In_fst _ _ D Hx).
Qed.

(** ** Reference consistency is stable under further declarations *)







(** ** The REST API construct and its [deploy] flag *)

(** With [deploy=False] the REST API construct declares itself and
    nothing else. *)
Lemma RestApi_without_deploy scope id d n t h t' :
  apigateway.RestApi scope id d n false t = Ok (h, t') ->
  t' = t ++ [(scope ++ [id],
              CRestApi {| description := d; rest_api_name := n;
                          deploy := false |})]
  /\ apigateway.api_path h = scope ++ [id].
Proof.
  unfold apigateway.RestApi, bind, ret.
  destruct (add_construct scope id _ t) as [[p t1]|e] eqn:E; [|discriminate].
  apply add_construct_inv in E as (-> & _ & ->).
  intros H; injection H as <- <-. auto.
Qed.

(** With [deploy=True] it declares one deployment and one stage more. *)
Lemma RestApi_with_deploy scope id d n t h t' :
  apigateway.RestApi scope id d n true t = Ok (h, t') ->
  count KDeployment t' = S (count KDeployment t)
  /\ count KStage t' = S (count KStage t).
Proof.
  unfold apigateway.RestApi, apigateway.Deployment, apigateway.Stage, bind, ret.
  destruct (add_construct scope id _ t) as [[p t1]|e] eqn:E1; [|discriminate].
  destruct (add_construct p "Deployment" _ t1) as [[q t2]|e] eqn:E2;
    [|discriminate].
  destruct (add_construct p "DeploymentStage.prod" _ t2) as [[r t3]|e] eqn:E3;
    [|discriminate].
  apply add_construct_inv in E1 as (_ & _ & ->).
  apply add_construct_inv in E2 as (_ & _ & ->).
  apply add_construct_inv in E3 as (_ & _ & ->).
  intros H; injection H as _ <-.
  rewrite !count_app, !count_single; simpl. lia.
Qed.

(** ** The stack's constructor returns *)

Lemma body_returns :
  GuardianApiCognitoStack_body [] = Ok (tt, declared_resources).
Proof. vm_compute. reflexivity. Qed.

Lemma constructed_resources scope construct_id scope' stack :
  GuardianApiCognitoStack scope construct_id = Ok (scope', stack) ->
  resources stack = declared_resources /\ stack_id stack = construct_id.
Proof.
  unfold GuardianApiCognitoStack.
  destruct (has_child scope construct_id); [discriminate|].
  rewrite body_returns. intros H; injection H as _ <-. auto.
Qed.

(** [app.py] synthesizes one template, that of the stack. *)
Lemma app_py_synth :
  app_py = Ok [("GuardianApiCognitoAuthStack", declared_resources)].
Proof. vm_compute. reflexivity. Qed.

Lemma app_py_constructs :
  GuardianApiCognitoStack App_new "GuardianApiCognitoAuthStack"
  = Ok (app_after, app_stack).
Proof. reflexivity. Qed.

(** Node paths of the stack are pairwise distinct. *)
Lemma declared_resources_NoDup : NoDup (map fst declared_resources).
Proof.
  vm_compute.
  repeat (constructor; [simpl; intuition discriminate|]).
  constructor.
Qed.

(** * The stack's template

    Each statement is about the stack returned by any call of the
    constructor that returns, whatever the scope and the construct id. *)

Unset Implicit Arguments.

Ltac of_constructed H :=
  let E := fresh "E" in
  apply constructed_resources in H as [E _]; rewrite E; clear E.

Ltac by_reading_template :=
  vm_compute; repeat (eexists || split); try reflexivity.

(** C1, counterexample: in the template of the stack [app.py]
    constructs, the one scope the GET method of /galaxy requires is not
    the literal string "guardian-cognito-resource-server/guardian.read". *)
Lemma C1_scope_is_not_the_literal :
  GuardianApiCognitoStack App_new "GuardianApiCognitoAuthStack"
  = Ok (app_after, app_stack)
  /\ exists galaxy r get m,
       resources_named "galaxy" (resources app_stack) = [(galaxy, r)]
       /\ methods_of galaxy "GET" (resources app_stack) = [(get, m)]
       /\ authorization_scopes m
          <> [lit "guardian-cognito-resource-server/guardian.read"].
Proof.
  split; [reflexivity|].
  repeat eexists; first [reflexivity | discriminate].
Qed.

(** C1, amended: the GET method declared on the /galaxy resource has
    authorization type COGNITO, is guarded by the authorizer backed by
    the user pool, and requires exactly one scope: the id attribute of
    the declared resource server (a reference to that server, whose
    identifier is "guardian-cognito-resource-server"), a slash, and the
    name "guardian.read" of its declared scope.  The scope is the text
    "guardian-cognito-resource-server/guardian.read" once the reference
    is resolved to the server's identifier. *)
Theorem C1_galaxy_get_authorization scope construct_id scope' stack :
  GuardianApiCognitoStack scope construct_id = Ok (scope', stack) ->
  let t := resources stack in
  exists galaxy r get m az a pool server rs sc,
    resources_named "galaxy" t = [(galaxy, r)]
    /\ methods_of galaxy "GET" t = [(get, m)]
    /\ authorization_type m = COGNITO
    /\ authorizer m = Some az
    /\ lookup az t = Some (CAuthorizer a)
    /\ cognito_user_pools a = [pool]
    /\ is_kind KUserPool pool t = true
    /\ select as_resource_server t = [(server, rs)]
    /\ identifier rs = "guardian-cognito-resource-server"
    /\ scopes rs = [sc]
    /\ scope_name sc = "guardian.read"
    /\ authorization_scopes m
       = [fstring [ [Ref server]; lit "/"; lit (scope_name sc) ]]
    /\ authorization_scopes m = [[Ref server; Lit "/guardian.read"]]
    /\ map (resolve (server_ids t)) (authorization_scopes m)
       = [Some "guardian-cognito-resource-server/guardian.read"].
Proof.
  intros H t; subst t. of_constructed H. repeat eexists; reflexivity.
Qed.

Lemma C1_galaxy_get_authorization_witness :
  GuardianApiCognitoStack App_new "GuardianApiCognitoAuthStack"
  = Ok (app_after, app_stack)
  /\ exists galaxy r get m az a pool server rs sc,
       resources_named "galaxy" (resources app_stack) = [(galaxy, r)]
       /\ methods_of galaxy "GET" (resources app_stack) = [(get, m)]
       /\ authorization_type m = COGNITO
       /\ authorizer m = Some az
       /\ lookup az (resources app_stack) = Some (CAuthorizer a)
       /\ cognito_user_pools a = [pool]
       /\ is_kind KUserPool pool (resources app_stack) = true
       /\ select as_resource_server (resources app_stack) = [(server, rs)]
       /\ identifier rs = "guardian-cognito-resource-server"
       /\ scopes rs = [sc]
       /\ scope_name sc = "guardian.read"
       /\ authorization_scopes m
          = [fstring [ [Ref server]; lit "/"; lit (scope_name sc) ]]
       /\ authorization_scopes m = [[Ref server; Lit "/guardian.read"]]
       /\ map (resolve (server_ids (resources app_stack)))
              (authorization_scopes m)
          = [Some "guardian-cognito-resource-server/guardian.read"].
Proof.
  split; [reflexivity|].
  apply (C1_galaxy_get_authorization App_new "GuardianApiCognitoAuthStack"
           app_after app_stack).
  reflexivity.
Defined.

(** C8: the user pool is declared with removal policy DESTROY, so it is
    deleted with the stack and not retained. *)
Theorem C8_user_pool_removal_policy scope construct_id scope' stack :
  GuardianApiCognitoStack scope construct_id = Ok (scope', stack) ->
  exists pool p,
    select as_user_pool (resources stack) = [(pool, p)]
    /\ removal_policy p = Some DESTROY
    /\ removal_policy p <> Some RETAIN.
Proof.
  intros H. of_constructed H. by_reading_template. discriminate.
Qed.

Lemma C8_user_pool_removal_policy_witness :
  GuardianApiCognitoStack App_new "GuardianApiCognitoAuthStack"
  = Ok (app_after, app_stack)
  /\ exists pool p,
       select as_user_pool (resources app_stack) = [(pool, p)]
       /\ removal_policy p = Some DESTROY
       /\ removal_policy p <> Some RETAIN.
Proof.
  split; [reflexivity|].
  apply (C8_user_pool_removal_policy App_new "GuardianApiCognitoAuthStack"
           app_after app_stack).
  reflexivity.
Defined.

(** C2: the template holds exactly one VPC, one user pool, one hosted
    domain, one resource server (carrying exactly one scope), one
    application client, one execution role, one function, one REST API,
    one authorizer, and exactly two stages. *)
Theorem C2_resource_counts scope construct_id scope' stack :
  GuardianApiCognitoStack scope construct_id = Ok (scope', stack) ->
  let t := resources stack in
  count KVpc t = 1
  /\ count KUserPool t = 1
  /\ count KUserPoolDomain t = 1
  /\ count KUserPoolResourceServer t = 1
  /\ map (fun rs => length (scopes (snd rs))) (select as_resource_server t)
     = [1]
  /\ count KUserPoolClient t = 1
  /\ count KRole t = 1
  /\ count KFunction t = 1
  /\ count KRestApi t = 1
  /\ count KAuthorizer t = 1
  /\ count KStage t = 2.
Proof. intros H t; subst t. of_constructed H. by_reading_template. Qed.

Lemma C2_resource_counts_witness :
  GuardianApiCognitoStack App_new "GuardianApiCognitoAuthStack"
  = Ok (app_after, app_stack)
  /\ count KVpc (resources app_stack) = 1
  /\ count KUserPool (resources app_stack) = 1
  /\ count KUserPoolDomain (resources app_stack) = 1
  /\ count KUserPoolResourceServer (resources app_stack) = 1
  /\ map (fun rs => length (scopes (snd rs)))
         (select as_resource_server (resources app_stack)) = [1]
  /\ count KUserPoolClient (resources app_stack) = 1
  /\ count KRole (resources app_stack) = 1
  /\ count KFunction (resources app_stack) = 1
  /\ count KRestApi (resources app_stack) = 1
  /\ count KAuthorizer (resources app_stack) = 1
  /\ count KStage (resources app_stack) = 2.
Proof.
  split; [reflexivity|].
  apply (C2_resource_counts App_new "GuardianApiCognitoAuthStack"
           app_after app_stack).
  reflexivity.
Defined.

(** The consistency check is not vacuous: it rejects a client whose
    scope no resource server declares, and a client whose scope is
    declared on a resource server of another pool. *)
Example dangling_scope_rejected :
  match
    (pool <- cognito.UserPool self "Pool" None ;;
     cognito.add_client pool "Client"
       {| admin_user_password := false; custom := false;
          user_password := false; user_srp := false |}
       {| flows := {| authorization_code_grant := false;
                      client_credentials := true;
                      implicit_code_grant := false |};
          oauth_scopes := [ {| oauth_scope_name := lit "server/read" |} ] |}
       true "Client") []
  with
  | Ok (_, t) => well_referenced t
  | Raise _ => true
  end = false.
Proof. reflexivity. Qed.

Example cross_pool_scope_rejected :
  match
    (pool_a <- cognito.UserPool self "PoolA" None ;;
     pool_b <- cognito.UserPool self "PoolB" None ;;
     let read := {| scope_name := "read"; scope_description := "" |} in
     server <- cognito.add_resource_server pool_a "Server" "Server" "server"
                 [read] ;;
     cognito.add_client pool_b "Client"
       {| admin_user_password := false; custom := false;
          user_password := false; user_srp := false |}
       {| flows := {| authorization_code_grant := false;
                      client_credentials := true;
                      implicit_code_grant := false |};
          oauth_scopes := [ cognito.OAuthScope_resource_server server read ] |}
       true "Client") []
  with
  | Ok (_, t) => well_referenced t
  | Raise _ => true
  end = false.
Proof. reflexivity. Qed.

(** C3: the template is reference-consistent: every reference names a
    declared construct of the right kind; the client's single allowed
    OAuth scope is a scope declared on a resource server (it is built
    from that server's id attribute and the scope's name), that resource
    server is attached to the pool the client is registered on, and that
    pool is the one pool the API authorizer references. *)
Theorem C3_reference_consistency scope construct_id scope' stack :
  GuardianApiCognitoStack scope construct_id = Ok (scope', stack) ->
  let t := resources stack in
  well_referenced t = true
  /\ exists client cl s server rs sc pool az a,
       select as_client t = [(client, cl)]
       /\ oauth_scopes (o_auth cl) = [s]
       /\ In (server, rs) (select as_resource_server t)
       /\ In sc (scopes rs)
       /\ oauth_scope_name s
          = fstring [ [Ref server]; lit "/"; lit (scope_name sc) ]
       /\ server_user_pool rs = pool
       /\ client_user_pool cl = pool
       /\ is_kind KUserPool pool t = true
       /\ select as_authorizer t = [(az, a)]
       /\ cognito_user_pools a = [pool].
Proof.
  intros H t; subst t. of_constructed H.
  split; [vm_compute; reflexivity|].
  repeat eexists; first [reflexivity | left; reflexivity].
Qed.

Lemma C3_reference_consistency_witness :
  GuardianApiCognitoStack App_new "GuardianApiCognitoAuthStack"
  = Ok (app_after, app_stack)
  /\ well_referenced (resources app_stack) = true
  /\ exists client cl s server rs sc pool az a,
       select as_client (resources app_stack) = [(client, cl)]
       /\ oauth_scopes (o_auth cl) = [s]
       /\ In (server, rs) (select as_resource_server (resources app_stack))
       /\ In sc (scopes rs)
       /\ oauth_scope_name s
          = fstring [ [Ref server]; lit "/"; lit (scope_name sc) ]
       /\ server_user_pool rs = pool
       /\ client_user_pool cl = pool
       /\ is_kind KUserPool pool (resources app_stack) = true
       /\ select as_authorizer (resources app_stack) = [(az, a)]
       /\ cognito_user_pools a = [pool].
Proof.
  split; [reflexivity|].
  apply (C3_reference_consistency App_new "GuardianApiCognitoAuthStack"
           app_after app_stack).
  reflexivity.
Defined.

(** C4: the application client's allowed-scopes list has exactly one
    element, the scope guardian.read of the guardian resource server, and
    no other; its OAuth flows enable the client-credentials grant, and a
    client secret is generated. *)
Theorem C4_client_scopes_and_flow scope construct_id scope' stack :
  GuardianApiCognitoStack scope construct_id = Ok (scope', stack) ->
  let t := resources stack in
  exists client cl server rs sc,
    select as_client t = [(client, cl)]
    /\ select as_resource_server t = [(server, rs)]
    /\ identifier rs = "guardian-cognito-resource-server"
    /\ scopes rs = [sc]
    /\ scope_name sc = "guardian.read"
    /\ oauth_scopes (o_auth cl)
       = [ {| oauth_scope_name :=
                fstring [ [Ref server]; lit "/"; lit (scope_name sc) ] |} ]
    /\ client_credentials (flows (o_auth cl)) = true
    /\ generate_secret cl = true.
Proof.
  intros H t; subst t. of_constructed H. repeat eexists; reflexivity.
Qed.

Lemma C4_client_scopes_and_flow_witness :
  GuardianApiCognitoStack App_new "GuardianApiCognitoAuthStack"
  = Ok (app_after, app_stack)
  /\ exists client cl server rs sc,
       select as_client (resources app_stack) = [(client, cl)]
       /\ select as_resource_server (resources app_stack) = [(server, rs)]
       /\ identifier rs = "guardian-cognito-resource-server"
       /\ scopes rs = [sc]
       /\ scope_name sc = "guardian.read"
       /\ oauth_scopes (o_auth cl)
          = [ {| oauth_scope_name :=
                   fstring [ [Ref server]; lit "/";
                             lit (scope_name sc) ] |} ]
       /\ client_credentials (flows (o_auth cl)) = true
       /\ generate_secret cl = true.
Proof.
  split; [reflexivity|].
  apply (C4_client_scopes_and_flow App_new "GuardianApiCognitoAuthStack"
           app_after app_stack).
  reflexivity.
Defined.

(** C5: exactly two stages are declared, named "dev" and "prod", and both
    reference the same deployment, which is a deployment of the REST
    API. *)
Theorem C5_two_stages_one_deployment scope construct_id scope' stack :
  GuardianApiCognitoStack scope construct_id = Ok (scope', stack) ->
  let t := resources stack in
  exists d dp,
    count KStage t = 2
    /\ map (fun s => (stage_name (snd s), deployment (snd s)))
           (select as_stage t)
       = [("dev", d); ("prod", d)]
    /\ lookup d t = Some (CDeployment dp)
    /\ is_kind KRestApi (api dp) t = true.
Proof.
  intros H t; subst t. of_constructed H. repeat eexists; reflexivity.
Qed.

Lemma C5_two_stages_one_deployment_witness :
  GuardianApiCognitoStack App_new "GuardianApiCognitoAuthStack"
  = Ok (app_after, app_stack)
  /\ exists d dp,
       count KStage (resources app_stack) = 2
       /\ map (fun s => (stage_name (snd s), deployment (snd s)))
              (select as_stage (resources app_stack))
          = [("dev", d); ("prod", d)]
       /\ lookup d (resources app_stack) = Some (CDeployment dp)
       /\ is_kind KRestApi (api dp) (resources app_stack) = true.
Proof.
  split; [reflexivity|].
  apply (C5_two_stages_one_deployment App_new "GuardianApiCognitoAuthStack"
           app_after app_stack).
  reflexivity.
Defined.

(** C6: the CORS preflight options of the /galaxy resource allow exactly
    the methods GET and OPTIONS, and all origins. *)
Theorem C6_galaxy_cors_preflight scope construct_id scope' stack :
  GuardianApiCognitoStack scope construct_id = Ok (scope', stack) ->
  let t := resources stack in
  exists galaxy r cors,
    resources_named "galaxy" t = [(galaxy, r)]
    /\ default_cors_preflight_options r = Some cors
    /\ allow_methods cors = ["GET"; "OPTIONS"]
    /\ allow_origins cors = apigateway.ALL_ORIGINS
    /\ allow_origins cors = ["*"].
Proof.
  intros H t; subst t. of_constructed H. repeat eexists; reflexivity.
Qed.

Lemma C6_galaxy_cors_preflight_witness :
  GuardianApiCognitoStack App_new "GuardianApiCognitoAuthStack"
  = Ok (app_after, app_stack)
  /\ exists galaxy r cors,
       resources_named "galaxy" (resources app_stack) = [(galaxy, r)]
       /\ default_cors_preflight_options r = Some cors
       /\ allow_methods cors = ["GET"; "OPTIONS"]
       /\ allow_origins cors = apigateway.ALL_ORIGINS
       /\ allow_origins cors = ["*"].
Proof.
  split; [reflexivity|].
  apply (C6_galaxy_cors_preflight App_new "GuardianApiCognitoAuthStack"
           app_after app_stack).
  reflexivity.
Defined.

(** C7: the function's network placement is the declared VPC and its role
    is the declared execution role; neither is left to the default. *)
Theorem C7_function_vpc_and_role scope construct_id scope' stack :
  GuardianApiCognitoStack scope construct_id = Ok (scope', stack) ->
  let t := resources stack in
  exists f fp v vp r rp,
    select as_function t = [(f, fp)]
    /\ select as_vpc t = [(v, vp)]
    /\ select as_role t = [(r, rp)]
    /\ vpc fp = Some v
    /\ role fp = Some r.
Proof.
  intros H t; subst t. of_constructed H. repeat eexists; reflexivity.
Qed.

Lemma C7_function_vpc_and_role_witness :
  GuardianApiCognitoStack App_new "GuardianApiCognitoAuthStack"
  = Ok (app_after, app_stack)
  /\ exists f fp v vp r rp,
       select as_function (resources app_stack) = [(f, fp)]
       /\ select as_vpc (resources app_stack) = [(v, vp)]
       /\ select as_role (resources app_stack) = [(r, rp)]
       /\ vpc fp = Some v
       /\ role fp = Some r.
Proof.
  split; [reflexivity|].
  apply (C7_function_vpc_and_role App_new "GuardianApiCognitoAuthStack"
           app_after app_stack).
  reflexivity.
Defined.

(** C9: the application client enables the SRP user authentication flow
    besides the client-credentials OAuth grant, so client-credentials is
    not the only flow enabled on the client. *)
Theorem C9_client_enables_user_srp scope construct_id scope' stack :
  GuardianApiCognitoStack scope construct_id = Ok (scope', stack) ->
  exists client cl,
    select as_client (resources stack) = [(client, cl)]
    /\ user_srp (auth_flows cl) = true
    /\ client_credentials (flows (o_auth cl)) = true
    /\ auth_flows cl
       <> {| admin_user_password := false; custom := false;
             user_password := false; user_srp := false |}.
Proof.
  intros H. of_constructed H.
  repeat eexists; first [reflexivity | discriminate].
Qed.

Lemma C9_client_enables_user_srp_witness :
  GuardianApiCognitoStack App_new "GuardianApiCognitoAuthStack"
  = Ok (app_after, app_stack)
  /\ exists client cl,
       select as_client (resources app_stack) = [(client, cl)]
       /\ user_srp (auth_flows cl) = true
       /\ client_credentials (flows (o_auth cl)) = true
       /\ auth_flows cl
          <> {| admin_user_password := false; custom := false;
                user_password := false; user_srp := false |}.
Proof.
  split; [reflexivity|].
  apply (C9_client_enables_user_srp App_new "GuardianApiCognitoAuthStack"
           app_after app_stack).
  reflexivity.
Defined.

(** C10: the REST API is declared with [deploy=False], so the API
    construct declares no deployment and no stage of its own (none is
    among its descendants); the deployment the stack declares itself is
    the only deployment of the template, and it is the one the "dev" and
    "prod" stages share. *)
Theorem C10_no_default_deployment scope construct_id scope' stack :
  GuardianApiCognitoStack scope construct_id = Ok (scope', stack) ->
  let t := resources stack in
  exists a ap d dp,
    select as_rest_api t = [(a, ap)]
    /\ deploy ap = false
    /\ count KDeployment (descendants a t) = 0
    /\ count KStage (descendants a t) = 0
    /\ select as_deployment t = [(d, dp)]
    /\ d = self ++ ["GuardianAPIGWDeployment"]
    /\ api dp = a
    /\ map (fun s => (stage_name (snd s), deployment (snd s)))
           (select as_stage t)
       = [("dev", d); ("prod", d)].
Proof.
  intros H t; subst t. of_constructed H. repeat eexists; reflexivity.
Qed.

Lemma C10_no_default_deployment_witness :
  GuardianApiCognitoStack App_new "GuardianApiCognitoAuthStack"
  = Ok (app_after, app_stack)
  /\ exists a ap d dp,
       select as_rest_api (resources app_stack) = [(a, ap)]
       /\ deploy ap = false
       /\ count KDeployment (descendants a (resources app_stack)) = 0
       /\ count KStage (descendants a (resources app_stack)) = 0
       /\ select as_deployment (resources app_stack) = [(d, dp)]
       /\ d = self ++ ["GuardianAPIGWDeployment"]
       /\ api dp = a
       /\ map (fun s => (stage_name (snd s), deployment (snd s)))
              (select as_stage (resources app_stack))
          = [("dev", d); ("prod", d)].
Proof.
  split; [reflexivity|].
  apply (C10_no_default_deployment App_new "GuardianApiCognitoAuthStack"
           app_after app_stack).
  reflexivity.
Defined.


(** * Further properties of the constructor's code *)

(** ** Strings and ids *)



Lemma declared_app (p : Path) (t u : Tree) :
  declared p (t ++ u) = declared p t || declared p u.
Proof.
  unfold declared. rewrite lookup_app. destruct (lookup p t); reflexivity.
Qed.

Lemma declared_single (p q : Path) (c : Construct) :
  declared p [(q, c)] = path_eqb p q.
Proof. unfold declared; simpl. destruct (path_eqb p q); reflexivity. Qed.


(** ** The stage loop *)

Lemma stage_loop_cons (s : string) (names : list string) (d : Path) (t : Tree) :
  stage_loop (s :: names) d t =
  if declared (self ++ [(s ++ "_stage")%string]) t
  then Raise (DuplicateConstructId (self ++ [(s ++ "_stage")%string]))
  else stage_loop names d
         (t ++ [(self ++ [(s ++ "_stage")%string],
                 CStage {| deployment := d; stage_name := s |})]).
Proof.
  unfold stage_loop; simpl for_each.
  unfold bind, apigateway.Stage, add_construct, ret.
  destruct (declared (self ++ [(s ++ "_stage")%string]) t); reflexivity.
Qed.

(** The body of the constructor ends with this loop, run on the stage
    names "dev" and "prod" and the stack's deployment. *)
Lemma body_ends_with_stage_loop :
  exists t, stage_loop stages (self ++ ["GuardianAPIGWDeployment"]) t
            = Ok (tt, declared_resources)
            /\ declared_resources = t ++ stage_nodes (self ++ ["GuardianAPIGWDeployment"]) stages.
Proof.
  exists (firstn 13 declared_resources). split; vm_compute; reflexivity.
Qed.



(** A stage id that is already taken makes the loop raise. *)
Lemma stage_loop_clash (names : list string) (d : Path) (t : Tree) (s : string) :
  In s names ->
  declared (self ++ [(s ++ "_stage")%string]) t = true ->
  exists p, stage_loop names d t = Raise (DuplicateConstructId p).
Proof.
  revert t; induction names as [|a names IH]; intros t HIn D; [destruct HIn|].
  rewrite stage_loop_cons.
  destruct (declared (self ++ [(a ++ "_stage")%string]) t) eqn:Da;
    [eexists; reflexivity|].
  destruct HIn as [->|HIn]; [congruence|].
  apply IH; [exact HIn|]. rewrite declared_app, D. reflexivity.
Qed.

(** X2: a stage name that occurs twice makes the stage loop raise a
    duplicate-construct-id error, whatever the tree it starts from. *)
Theorem X2_stage_loop_raises_on_repeated_name
    (names : list string) (d : Path) (t : Tree) :
  ~ NoDup names ->
  exists p, stage_loop names d t = Raise (DuplicateConstructId p).
Proof.
  revert t; induction names as [|a names IH]; intros t ND.
  - exfalso; apply ND; constructor.
  - rewrite stage_loop_cons.
    destruct (declared (self ++ [(a ++ "_stage")%string]) t) eqn:Da;
      [eexists; reflexivity|].
    destruct (in_dec string_dec a names) as [HIn|HNotIn].
    + apply (stage_loop_clash names d _ a HIn).
      rewrite declared_app, declared_single, path_eqb_refl.
      apply orb_true_r.
    + apply IH. intros ND'. apply ND. now constructor.
Qed.

Lemma X2_stage_loop_raises_on_repeated_name_witness :
  ~ NoDup ["dev"; "dev"]
  /\ exists p, stage_loop ["dev"; "dev"] ["GuardianAPIGWDeployment"] []
               = Raise (DuplicateConstructId p).
Proof.
  assert (ND : ~ NoDup ["dev"; "dev"]).
  { intros H. inversion H as [|x l Hnotin _]; subst. apply Hnotin. now left. }
  split; [exact ND|].
  exact (X2_stage_loop_raises_on_repeated_name ["dev"; "dev"]
           ["GuardianAPIGWDeployment"] [] ND).
Defined.

(** ** Declaration order *)






(** ** The endpoint *)

(** X9: the GET method of /galaxy proxies to the one function of the
    stack, and every response parameter its integration response sets
    (the Access-Control-Allow-Origin header, for status 200) is declared
    by its method response for the same status. *)
Theorem X9_get_integration_responses scope construct_id scope' stack :
  GuardianApiCognitoStack scope construct_id = Ok (scope', stack) ->
  let t := resources stack in
  exists galaxy r get m f fp irs,
    resources_named "galaxy" t = [(galaxy, r)]
    /\ methods_of galaxy "GET" t = [(get, m)]
    /\ select as_function t = [(f, fp)]
    /\ integration m = LambdaIntegration f true irs
    /\ map (fun ir => (ir_status_code ir, ir_response_parameters ir)) irs
       = [("200", [("method.response.header.Access-Control-Allow-Origin",
                    "'*'")])]
    /\ responses_consistent m = true.
Proof.
  intros H t; subst t. of_constructed H. repeat eexists; reflexivity.
Qed.

Lemma X9_get_integration_responses_witness :
  GuardianApiCognitoStack App_new "GuardianApiCognitoAuthStack"
  = Ok (app_after, app_stack)
  /\ exists galaxy r get m f fp irs,
       resources_named "galaxy" (resources app_stack) = [(galaxy, r)]
       /\ methods_of galaxy "GET" (resources app_stack) = [(get, m)]
       /\ select as_function (resources app_stack) = [(f, fp)]
       /\ integration m = LambdaIntegration f true irs
       /\ map (fun ir => (ir_status_code ir, ir_response_parameters ir)) irs
          = [("200", [("method.response.header.Access-Control-Allow-Origin",
                       "'*'")])]
       /\ responses_consistent m = true.
Proof.
  split; [reflexivity|].
  apply (X9_get_integration_responses App_new "GuardianApiCognitoAuthStack"
           app_after app_stack).
  reflexivity.
Defined.

(** The check of response parameters is not vacuous: a method whose
    integration sets a header that no method response declares fails. *)
Example undeclared_response_parameter_rejected :
  responses_consistent
    {| method_resource := ["r"]; http_method := "GET";
       integration :=
         LambdaIntegration ["f"] true
           [ {| ir_status_code := "200";
                ir_response_parameters :=
                  [("method.response.header.Access-Control-Allow-Origin",
                    "'*'")] |} ];
       authorizer := None; authorization_scopes := [];
       authorization_type := NONE; method_responses := [] |}
  = false.
Proof. reflexivity. Qed.

(** X10: the methods the CORS preflight of /galaxy allows are exactly
    the methods declared on /galaxy: the preflight OPTIONS method and
    the GET method, and no other. *)
Theorem X10_cors_methods_are_declared scope construct_id scope' stack :
  GuardianApiCognitoStack scope construct_id = Ok (scope', stack) ->
  let t := resources stack in
  cors_matches_methods t = true
  /\ exists galaxy r,
       resources_named "galaxy" t = [(galaxy, r)]
       /\ declared_verbs galaxy t = ["OPTIONS"; "GET"]
       /\ count KMethod t = 2.
Proof.
  intros H t; subst t. of_constructed H.
  split; [vm_compute; reflexivity|]. repeat eexists; reflexivity.
Qed.

Lemma X10_cors_methods_are_declared_witness :
  GuardianApiCognitoStack App_new "GuardianApiCognitoAuthStack"
  = Ok (app_after, app_stack)
  /\ cors_matches_methods (resources app_stack) = true
  /\ exists galaxy r,
       resources_named "galaxy" (resources app_stack) = [(galaxy, r)]
       /\ declared_verbs galaxy (resources app_stack) = ["OPTIONS"; "GET"]
       /\ count KMethod (resources app_stack) = 2.
Proof.
  split; [reflexivity|].
  apply (X10_cors_methods_are_declared App_new "GuardianApiCognitoAuthStack"
           app_after app_stack).
  reflexivity.
Defined.

(** X11: every method guarded by an authorizer can be called by a client
    of the stack: a scope the method accepts is among the allowed scopes
    of a client that has the client-credentials grant and is registered
    on a pool the method's authorizer references. *)
Theorem X11_guarded_methods_callable scope construct_id scope' stack :
  GuardianApiCognitoStack scope construct_id = Ok (scope', stack) ->
  forall p m, In (p, m) (select as_method (resources stack)) ->
              method_callable (resources stack) m = true.
Proof.
  intros H. of_constructed H. intros p m HIn.
  assert (A : forallb (fun n => method_callable declared_resources (snd n))
                      (select as_method declared_resources) = true)
    by (vm_compute; reflexivity).
  rewrite forallb_forall in A. exact (A (p, m) HIn).
Qed.

Lemma X11_guarded_methods_callable_witness :
  GuardianApiCognitoStack App_new "GuardianApiCognitoAuthStack"
  = Ok (app_after, app_stack)
  /\ In (galaxy_get_path, galaxy_get_props)
        (select as_method (resources app_stack))
  /\ method_callable (resources app_stack) galaxy_get_props = true.
Proof.
  assert (HIn : In (galaxy_get_path, galaxy_get_props)
                   (select as_method (resources app_stack)))
    by (right; left; reflexivity).
  split; [reflexivity|]. split; [exact HIn|].
  exact (X11_guarded_methods_callable App_new "GuardianApiCognitoAuthStack"
           app_after app_stack eq_refl galaxy_get_path galaxy_get_props HIn).
Defined.

(** The check is not vacuous: with the client's scope list emptied, the
    GET method could be called by no client. *)
Example no_scope_no_call :
  let t := map (fun n =>
                  match snd n with
                  | CUserPoolClient c =>
                      (fst n,
                       CUserPoolClient
                         {| client_user_pool := client_user_pool c;
                            auth_flows := auth_flows c;
                            o_auth := {| flows := flows (o_auth c);
                                         oauth_scopes := [] |};
                            generate_secret := generate_secret c;
                            user_pool_client_name := user_pool_client_name c |})
                  | _ => n
                  end) declared_resources in
  forallb (fun n => method_callable t (snd n)) (select as_method t) = false.
Proof. reflexivity. Qed.

(** X12: the only method callable without authorization is the CORS
    preflight: every method other than OPTIONS has authorization type
    COGNITO, an authorizer, and a non-empty list of required scopes. *)
Theorem X12_only_preflight_is_open scope construct_id scope' stack :
  GuardianApiCognitoStack scope construct_id = Ok (scope', stack) ->
  forall p m, In (p, m) (select as_method (resources stack)) ->
              http_method m <> "OPTIONS" ->
              authorization_type m = COGNITO
              /\ authorizer m <> None
              /\ authorization_scopes m <> [].
Proof.
  intros H. of_constructed H. intros p m HIn NotOptions.
  vm_compute in HIn.
  destruct HIn as [E|[E|[]]]; injection E as <- <-.
  - exfalso; apply NotOptions; reflexivity.
  - repeat split; discriminate.
Qed.

Lemma X12_only_preflight_is_open_witness :
  GuardianApiCognitoStack App_new "GuardianApiCognitoAuthStack"
  = Ok (app_after, app_stack)
  /\ In (galaxy_get_path, galaxy_get_props)
        (select as_method (resources app_stack))
  /\ http_method galaxy_get_props <> "OPTIONS"
  /\ authorization_type galaxy_get_props = COGNITO
  /\ authorizer galaxy_get_props <> None
  /\ authorization_scopes galaxy_get_props <> [].
Proof.
  assert (HIn : In (galaxy_get_path, galaxy_get_props)
                   (select as_method (resources app_stack)))
    by (right; left; reflexivity).
  assert (HN : http_method galaxy_get_props <> "OPTIONS") by discriminate.
  split; [reflexivity|]. split; [exact HIn|]. split; [exact HN|].
  exact (X12_only_preflight_is_open App_new "GuardianApiCognitoAuthStack"
           app_after app_stack eq_refl galaxy_get_path galaxy_get_props
           HIn HN).
Defined.

(** ** The identity pool, the network and the function *)

(** X13: the template has one user pool, and every construct that
    refers to a pool (the hosted domain with prefix "guardian", the
    resource server, the application client and the authorizer, in
    declaration order) refers to that pool. *)
Theorem X13_every_pool_reference_is_the_pool scope construct_id scope' stack :
  GuardianApiCognitoStack scope construct_id = Ok (scope', stack) ->
  let t := resources stack in
  exists pool pp d dp,
    select as_user_pool t = [(pool, pp)]
    /\ map (fun n => (kind_of (snd n), pool_refs (snd n)))
           (filter (fun n => negb (Nat.eqb (length (pool_refs (snd n))) 0)) t)
       = [ (KUserPoolDomain, [pool]); (KUserPoolResourceServer, [pool]);
           (KUserPoolClient, [pool]); (KAuthorizer, [pool]) ]
    /\ select as_domain t = [(d, dp)]
    /\ domain_prefix (cognito_domain dp) = "guardian".
Proof.
  intros H t; subst t. of_constructed H. repeat eexists; reflexivity.
Qed.

Lemma X13_every_pool_reference_is_the_pool_witness :
  GuardianApiCognitoStack App_new "GuardianApiCognitoAuthStack"
  = Ok (app_after, app_stack)
  /\ exists pool pp d dp,
       select as_user_pool (resources app_stack) = [(pool, pp)]
       /\ map (fun n => (kind_of (snd n), pool_refs (snd n)))
              (filter (fun n => negb (Nat.eqb (length (pool_refs (snd n))) 0))
                      (resources app_stack))
          = [ (KUserPoolDomain, [pool]); (KUserPoolResourceServer, [pool]);
              (KUserPoolClient, [pool]); (KAuthorizer, [pool]) ]
       /\ select as_domain (resources app_stack) = [(d, dp)]
       /\ domain_prefix (cognito_domain dp) = "guardian".
Proof.
  split; [reflexivity|].
  apply (X13_every_pool_reference_is_the_pool App_new
           "GuardianApiCognitoAuthStack" app_after app_stack).
  reflexivity.
Defined.

(** X14: the VPC spans one availability zone of the block 10.2.0.0/16
    and has two subnet groups with distinct names, a public one and an
    isolated private one (none with egress), each with a 24-bit mask;
    the subnets fit into the block. *)
Theorem X14_vpc_subnets_fit scope construct_id scope' stack :
  GuardianApiCognitoStack scope construct_id = Ok (scope', stack) ->
  exists v vp,
    select as_vpc (resources stack) = [(v, vp)]
    /\ ip_addresses vp = ec2.cidr "10.2.0.0/16"
    /\ prefix_length (ip_addresses vp) = Some 16
    /\ max_azs vp = 1
    /\ map (fun s => (subnet_type s, cidr_mask s)) (subnet_configuration vp)
       = [(PUBLIC, 24); (PRIVATE_ISOLATED, 24)]
    /\ NoDup (map name (subnet_configuration vp))
    /\ subnets_fit vp = true.
Proof.
  intros H. of_constructed H.
  eexists; eexists. split; [reflexivity|].
  repeat split; try (vm_compute; reflexivity).
  simpl. repeat (constructor; [simpl; intuition discriminate|]). constructor.
Qed.

Lemma X14_vpc_subnets_fit_witness :
  GuardianApiCognitoStack App_new "GuardianApiCognitoAuthStack"
  = Ok (app_after, app_stack)
  /\ exists v vp,
       select as_vpc (resources app_stack) = [(v, vp)]
       /\ ip_addresses vp = ec2.cidr "10.2.0.0/16"
       /\ prefix_length (ip_addresses vp) = Some 16
       /\ max_azs vp = 1
       /\ map (fun s => (subnet_type s, cidr_mask s)) (subnet_configuration vp)
          = [(PUBLIC, 24); (PRIVATE_ISOLATED, 24)]
       /\ NoDup (map name (subnet_configuration vp))
       /\ subnets_fit vp = true.
Proof.
  split; [reflexivity|].
  apply (X14_vpc_subnets_fit App_new "GuardianApiCognitoAuthStack"
           app_after app_stack).
  reflexivity.
Defined.

(** The fit check is not vacuous: two subnet groups as large as the
    block itself do not fit, nor does a block without a prefix length. *)
Example oversized_subnets_rejected :
  subnets_fit {| ip_addresses := "10.2.0.0/16"; max_azs := 1;
                 subnet_configuration :=
                   [ {| name := "a"; cidr_mask := 16; subnet_type := PUBLIC |};
                     {| name := "b"; cidr_mask := 16;
                        subnet_type := PRIVATE_ISOLATED |} ] |} = false
  /\ subnets_fit {| ip_addresses := "10.2.0.0"; max_azs := 1;
                    subnet_configuration := [] |} = false.
Proof. split; vm_compute; reflexivity. Qed.

(** X15: the one function of the stack is placed in the VPC, and its
    role is a declared role that the Lambda service may assume and that
    carries the managed policy AWSLambdaVPCAccessExecutionRole, which a
    function placed in a VPC needs. *)
Theorem X15_function_role_grants_vpc_access scope construct_id scope' stack :
  GuardianApiCognitoStack scope construct_id = Ok (scope', stack) ->
  let t := resources stack in
  exists f fp r rp,
    select as_function t = [(f, fp)]
    /\ vpc fp <> None
    /\ role fp = Some r
    /\ lookup r t = Some (CRole rp)
    /\ assumed_by rp = iam.ServicePrincipal "lambda.amazonaws.com"
    /\ managed_policies rp
       = [iam.from_aws_managed_policy_name
            "service-role/AWSLambdaVPCAccessExecutionRole"]
    /\ vpc_function_role_ok t fp = true.
Proof.
  intros H t; subst t. of_constructed H.
  repeat eexists; first [reflexivity | discriminate].
Qed.

Lemma X15_function_role_grants_vpc_access_witness :
  GuardianApiCognitoStack App_new "GuardianApiCognitoAuthStack"
  = Ok (app_after, app_stack)
  /\ exists f fp r rp,
       select as_function (resources app_stack) = [(f, fp)]
       /\ vpc fp <> None
       /\ role fp = Some r
       /\ lookup r (resources app_stack) = Some (CRole rp)
       /\ assumed_by rp = iam.ServicePrincipal "lambda.amazonaws.com"
       /\ managed_policies rp
          = [iam.from_aws_managed_policy_name
               "service-role/AWSLambdaVPCAccessExecutionRole"]
       /\ vpc_function_role_ok (resources app_stack) fp = true.
Proof.
  split; [reflexivity|].
  apply (X15_function_role_grants_vpc_access App_new
           "GuardianApiCognitoAuthStack" app_after app_stack).
  reflexivity.
Defined.
